(** * my-custom-caddy: the plugin selection manifest and its dependency file

    The repository consists of two declarative files:

    - [tools.go], a Go file guarded by the build constraint [tools] whose
      only content is a block of blank imports;
    - [go.mod], the module file: one [replace] directive and two [require]
      blocks.

    Both files are embedded below as data, together with the meaning the Go
    toolchain gives to the three constructs they use: a [//go:build] line
    (package [go/build/constraint]), a blank import (package initialisation,
    run once per package), and a [replace] directive (the module loader's
    [Replacement]). *)

From Stdlib Require Import Ascii.
From Stdlib Require String.
From stdpp Require Import base list strings gmap.

(* stdpp's set_solver clears hypotheses that may already be gone. *)
Set Warnings "-clear-no-such-hyp".

(** ** Build constraints *)

Module Constraint.

(** The expression language of a [//go:build] line. *)
Inductive Expr : Type :=
| TagExpr (tag : string)
| NotExpr (x : Expr)
| AndExpr (x y : Expr)
| OrExpr (x y : Expr).

(** [Eval x ok] evaluates [x] where [ok] tells which tags are satisfied. *)
Fixpoint Eval (x : Expr) (ok : string → bool) : bool :=
  match x with
  | TagExpr tag => ok tag
  | NotExpr x => negb (Eval x ok)
  | AndExpr x y => Eval x ok && Eval y ok
  | OrExpr x y => Eval x ok || Eval y ok
  end.

End Constraint.

(** ** Go source files, as far as imports are concerned *)

Module GoFile.

(** The name an import spec binds: none, [_], [.], or an alias. *)
Inductive ImportName : Type :=
| ImportDefault
| ImportBlank
| ImportDot
| ImportAlias (name : string).

#[global] Instance ImportName_eq_dec : EqDecision ImportName.
Proof. solve_decision. Defined.

Record ImportSpec : Type := mkImport {
  Name : ImportName;
  Path : string
}.

Record File : Type := mkFile {
  BuildConstraint : option Constraint.Expr;
  PackageName : string;
  Imports : list ImportSpec
}.

(** A build is described by the set of tags that are set for it. *)
Definition Context : Type := gset string.

Definition matchTag (ctx : Context) (tag : string) : bool :=
  bool_decide (tag ∈ ctx).

(** A file takes part in a build iff it has no constraint line or the
    constraint evaluates to true under the build's tags. *)
Definition shouldBuild (ctx : Context) (f : File) : bool :=
  match BuildConstraint f with
  | None => true
  | Some x => Constraint.Eval x (matchTag ctx)
  end.

(** The import specs the file contributes to a build. *)
Definition buildImports (ctx : Context) (f : File) : list ImportSpec :=
  if shouldBuild ctx f then Imports f else [].

Definition isBlank (i : ImportSpec) : bool :=
  bool_decide (Name i = ImportBlank).

(** Import paths pulled in solely for their initialisation side effect. *)
Definition blankPaths (specs : list ImportSpec) : list string :=
  Path <$> filter (λ i, isBlank i = true) specs.

Definition sideEffectImports (ctx : Context) (f : File) : list string :=
  blankPaths (buildImports ctx f).

End GoFile.

(** ** tools.go *)

Definition blank (path : string) : GoFile.ImportSpec :=
  GoFile.mkImport GoFile.ImportBlank path.

Definition tools_go : GoFile.File := {|
  GoFile.BuildConstraint := Some (Constraint.TagExpr "tools");
  GoFile.PackageName := "main";
  GoFile.Imports := [
    blank "github.com/caddyserver/caddy/v2";
    blank "github.com/caddyserver/forwardproxy";
    blank "github.com/imgk/caddy-trojan";
    blank "github.com/mholt/caddy-l4";
    blank "github.com/fvbommel/caddy-combine-ip-ranges";
    blank "github.com/LeenHawk/caddy-edgeone-ip";
    blank "github.com/monobilisim/caddy-ip-list";
    blank "github.com/WeidiDeng/caddy-cloudflare-ip";
    blank "github.com/xcaddyplugins/caddy-trusted-cloudfront"
  ]
|}.

(** The Selection Manifest: the identifiers listed in tools.go. *)
Definition manifest : list string :=
  GoFile.blankPaths (GoFile.Imports tools_go).

(** ** Module files *)

Module ModFile.

(** A module path with a version ([module.Version]); the empty version
    on the left of a [replace] stands for every version of the path. *)
Record Version : Type := mkVersion {
  VPath : string;
  VVersion : string
}.

#[global] Instance Version_eq_dec : EqDecision Version.
Proof. solve_decision. Defined.

Record Require : Type := mkRequire {
  Mod : Version;
  Indirect : bool
}.

Record Replace : Type := mkReplace {
  Old : Version;
  New : Version
}.

Record File : Type := mkFile {
  ModulePath : string;
  GoVersion : string;
  Replaces : list Replace;
  Requires : list Require
}.

Definition req (path version : string) (indirect : bool) : Require :=
  mkRequire (mkVersion path version) indirect.

Definition reqPath (r : Require) : string := VPath (Mod r).
Definition reqVersion (r : Require) : string := VVersion (Mod r).

(** The version a require list pins for a path: the first entry naming it. *)
Definition pinned (rs : list Require) (path : string) : option string :=
  reqVersion <$> head (filter (λ r, reqPath r = path) rs).

(** [Replacement rs m]: the replacement for [m], if any.  A directive
    for exactly [m] wins over one for every version of [m]'s path. *)
Definition Replacement (rs : list Replace) (m : Version) : option Version :=
  match head (filter (λ r, Old r = m) rs) with
  | Some r => Some (New r)
  | None =>
      New <$> head (filter (λ r, Old r = mkVersion (VPath m) EmptyString)
                           rs)
  end.

(** The module actually loaded for [m]. *)
Definition resolveReplacement (rs : list Replace) (m : Version) : Version :=
  match Replacement rs m with
  | Some r => r
  | None => m
  end.

(** The modules a file's requirements load once its own [replace]
    directives are applied. *)
Definition loaded (f : File) : list Version :=
  resolveReplacement (Replaces f) <$> (Mod <$> Requires f).

End ModFile.

(** ** go.mod *)

Import ModFile.

(** First [require] block of go.mod (lines 7-27): the modules the main
    module names without an [// indirect] mark. *)
Definition require_direct : list Require := [
  req "github.com/LeenHawk/caddy-edgeone-ip" "v0.1.1" false;
  req "github.com/WeidiDeng/caddy-cloudflare-ip" "v0.0.0-20231130002422-f53b62aa13cb" false;
  req "github.com/caddy-dns/tencentcloud" "v0.4.3" false;
  req "github.com/caddyserver/caddy/v2" "v2.10.2" false;
  req "github.com/caddyserver/forwardproxy" "v0.0.0-20251013200746-bb364cc53204" false;
  req "github.com/caddyserver/jsonc-adapter" "v0.0.0-20200325004025-825ee096306c" false;
  req "github.com/fvbommel/caddy-combine-ip-ranges" "v0.0.1" false;
  req "github.com/greenpau/caddy-security" "v1.1.31" false;
  req "github.com/imgk/caddy-trojan" "v0.2.10-2" false;
  req "github.com/lanrat/caddy-dynamic-remoteip" "v0.0.0-20231007025615-f72ed4fc7b9c" false;
  req "github.com/mholt/caddy-events-exec" "v0.1.0" false;
  req "github.com/mholt/caddy-l4" "v0.0.0-20251209130418-1a3490ef786a" false;
  req "github.com/mholt/caddy-ratelimit" "v0.1.0" false;
  req "github.com/mholt/caddy-webdav" "v0.0.0-20250805175825-7a5c90d8bf90" false;
  req "github.com/monobilisim/caddy-ip-list" "v0.0.0-20250818180736-cd5c45325ade" false;
  req "github.com/okrc/caddy-uploadcert-tencentcloud" "v0.1.2" false;
  req "github.com/porech/caddy-maxmind-geolocation" "v1.0.1" false;
  req "github.com/tuzzmaniandevil/caddy-dynamic-clientip" "v1.0.5" false;
  req "github.com/xcaddyplugins/caddy-trusted-cloudfront" "v0.0.0-20240604042247-0a0864e80f1c" false
].

(** Second [require] block of go.mod (lines 29-180): every entry carries
    the [// indirect] mark. *)
Definition require_indirect : list Require := [
  req "cel.dev/expr" "v0.24.0" true;
  req "cloud.google.com/go/auth" "v0.16.2" true;
  req "cloud.google.com/go/auth/oauth2adapt" "v0.2.8" true;
  req "cloud.google.com/go/compute/metadata" "v0.7.0" true;
  req "dario.cat/mergo" "v1.0.2" true;
  req "filippo.io/edwards25519" "v1.1.0" true;
  req "github.com/AndreasBriese/bbloom" "v0.0.0-20190825152654-46b345b51c96" true;
  req "github.com/Azure/go-ntlmssp" "v0.0.0-20221128193559-754e69321358" true;
  req "github.com/KimMachineGun/automemlimit" "v0.7.4" true;
  req "github.com/Masterminds/goutils" "v1.1.1" true;
  req "github.com/Masterminds/semver/v3" "v3.3.1" true;
  req "github.com/Masterminds/sprig/v3" "v3.3.0" true;
  req "github.com/Microsoft/go-winio" "v0.6.2" true;
  req "github.com/antlr4-go/antlr/v4" "v4.13.1" true;
  req "github.com/aryann/difflib" "v0.0.0-20210328193216-ff5ff6dc229b" true;
  req "github.com/beevik/etree" "v1.5.0" true;
  req "github.com/beorn7/perks" "v1.0.1" true;
  req "github.com/caddyserver/certmagic" "v0.25.0" true;
  req "github.com/caddyserver/zerossl" "v0.1.3" true;
  req "github.com/ccoveille/go-safecast" "v1.6.1" true;
  req "github.com/cespare/xxhash" "v1.1.0" true;
  req "github.com/cespare/xxhash/v2" "v2.3.0" true;
  req "github.com/chzyer/readline" "v1.5.1" true;
  req "github.com/cloudflare/circl" "v1.6.1" true;
  req "github.com/coreos/go-oidc/v3" "v3.14.1" true;
  req "github.com/cpuguy83/go-md2man/v2" "v2.0.7" true;
  req "github.com/crewjam/httperr" "v0.2.0" true;
  req "github.com/crewjam/saml" "v0.4.14" true;
  req "github.com/dgraph-io/badger" "v1.6.2" true;
  req "github.com/dgraph-io/badger/v2" "v2.2007.4" true;
  req "github.com/dgraph-io/ristretto" "v0.2.0" true;
  req "github.com/dgryski/go-farm" "v0.0.0-20240924180020-3414d57e47da" true;
  req "github.com/dustin/go-humanize" "v1.0.1" true;
  req "github.com/emersion/go-sasl" "v0.0.0-20241020182733-b788ff22d5a6" true;
  req "github.com/emersion/go-smtp" "v0.21.3" true;
  req "github.com/felixge/httpsnoop" "v1.0.4" true;
  req "github.com/fsnotify/fsnotify" "v1.9.0" true;
  req "github.com/go-asn1-ber/asn1-ber" "v1.5.7" true;
  req "github.com/go-jose/go-jose/v3" "v3.0.4" true;
  req "github.com/go-jose/go-jose/v4" "v4.1.0" true;
  req "github.com/go-ldap/ldap/v3" "v3.4.10" true;
  req "github.com/go-logr/logr" "v1.4.3" true;
  req "github.com/go-logr/stdr" "v1.2.2" true;
  req "github.com/go-sql-driver/mysql" "v1.9.2" true;
  req "github.com/golang-jwt/jwt/v4" "v4.5.2" true;
  req "github.com/golang/protobuf" "v1.5.4" true;
  req "github.com/golang/snappy" "v1.0.0" true;
  req "github.com/google/btree" "v1.1.3" true;
  req "github.com/google/cel-go" "v0.26.0" true;
  req "github.com/google/s2a-go" "v0.1.9" true;
  req "github.com/google/uuid" "v1.6.0" true;
  req "github.com/googleapis/enterprise-certificate-proxy" "v0.3.6" true;
  req "github.com/googleapis/gax-go/v2" "v2.14.2" true;
  req "github.com/gorilla/websocket" "v1.5.3" true;
  req "github.com/greenpau/go-authcrunch" "v1.1.7" true;
  req "github.com/greenpau/versioned" "v1.0.30" true;
  req "github.com/huandu/xstrings" "v1.5.0" true;
  req "github.com/imgk/memory-go" "v0.2.0" true;
  req "github.com/inconshreveable/mousetrap" "v1.1.0" true;
  req "github.com/jackc/pgpassfile" "v1.0.0" true;
  req "github.com/jackc/pgservicefile" "v0.0.0-20240606120523-5a60cdf6a761" true;
  req "github.com/jackc/pgx/v5" "v5.7.5" true;
  req "github.com/jackc/puddle/v2" "v2.2.2" true;
  req "github.com/jonboulle/clockwork" "v0.5.0" true;
  req "github.com/klauspost/compress" "v1.18.0" true;
  req "github.com/klauspost/cpuid/v2" "v2.3.0" true;
  req "github.com/libdns/libdns" "v1.1.1" true;
  req "github.com/libdns/tencentcloud" "v1.4.3" true;
  req "github.com/manifoldco/promptui" "v0.9.0" true;
  req "github.com/mastercactapus/proxyprotocol" "v0.0.4" true;
  req "github.com/mattermost/xml-roundtrip-validator" "v0.1.0" true;
  req "github.com/mattn/go-colorable" "v0.1.14" true;
  req "github.com/mattn/go-isatty" "v0.0.20" true;
  req "github.com/mgutz/ansi" "v0.0.0-20200706080929-d51e80ef957d" true;
  req "github.com/mholt/acmez/v3" "v3.1.4" true;
  req "github.com/miekg/dns" "v1.1.68" true;
  req "github.com/mitchellh/copystructure" "v1.2.0" true;
  req "github.com/mitchellh/go-ps" "v1.0.0" true;
  req "github.com/mitchellh/reflectwalk" "v1.0.2" true;
  req "github.com/muhammadmuzzammil1998/jsonc" "v0.0.0-20200303171503-1e787b591db7" true;
  req "github.com/munnerz/goautoneg" "v0.0.0-20191010083416-a7dc8b61c822" true;
  req "github.com/oschwald/maxminddb-golang" "v1.13.1" true;
  req "github.com/pbnjay/memory" "v0.0.0-20210728143218-7b4eea64cf58" true;
  req "github.com/pires/go-proxyproto" "v0.8.1" true;
  req "github.com/pkg/errors" "v0.9.1" true;
  req "github.com/prometheus/client_golang" "v1.23.2" true;
  req "github.com/prometheus/client_model" "v0.6.2" true;
  req "github.com/prometheus/common" "v0.67.4" true;
  req "github.com/prometheus/procfs" "v0.19.2" true;
  req "github.com/quic-go/qpack" "v0.6.0" true;
  req "github.com/quic-go/quic-go" "v0.57.1" true;
  req "github.com/riobard/go-bloom" "v0.0.0-20200614022211-cdc8013cb5b3" true;
  req "github.com/rs/xid" "v1.6.0" true;
  req "github.com/russellhaering/goxmldsig" "v1.5.0" true;
  req "github.com/russross/blackfriday/v2" "v2.1.0" true;
  req "github.com/shadowsocks/go-shadowsocks2" "v0.1.6-0.20241020092332-e1fe9ea73740" true;
  req "github.com/shopspring/decimal" "v1.4.0" true;
  req "github.com/shurcooL/sanitized_anchor_name" "v1.0.0" true;
  req "github.com/skip2/go-qrcode" "v0.0.0-20200617195104-da1b6568686e" true;
  req "github.com/slackhq/nebula" "v1.9.7" true;
  req "github.com/smallstep/certificates" "v0.28.4" true;
  req "github.com/smallstep/cli-utils" "v0.12.1" true;
  req "github.com/smallstep/linkedca" "v0.23.0" true;
  req "github.com/smallstep/nosql" "v0.7.0" true;
  req "github.com/smallstep/pkcs7" "v0.2.1" true;
  req "github.com/smallstep/scep" "v0.0.0-20250318231241-a25cabb69492" true;
  req "github.com/smallstep/truststore" "v0.13.0" true;
  req "github.com/spf13/cast" "v1.8.0" true;
  req "github.com/spf13/cobra" "v1.9.1" true;
  req "github.com/spf13/pflag" "v1.0.7" true;
  req "github.com/stoewer/go-strcase" "v1.3.0" true;
  req "github.com/tailscale/tscert" "v0.0.0-20240608151842-d3f834017e53" true;
  req "github.com/things-go/go-socks5" "v0.1.0" true;
  req "github.com/urfave/cli" "v1.22.17" true;
  req "github.com/zeebo/blake3" "v0.2.4" true;
  req "go.etcd.io/bbolt" "v1.4.0" true;
  req "go.opentelemetry.io/auto/sdk" "v1.1.0" true;
  req "go.opentelemetry.io/contrib/instrumentation/net/http/otelhttp" "v0.61.0" true;
  req "go.opentelemetry.io/otel" "v1.37.0" true;
  req "go.opentelemetry.io/otel/metric" "v1.37.0" true;
  req "go.opentelemetry.io/otel/trace" "v1.37.0" true;
  req "go.step.sm/crypto" "v0.67.0" true;
  req "go.uber.org/automaxprocs" "v1.6.0" true;
  req "go.uber.org/multierr" "v1.11.0" true;
  req "go.uber.org/zap" "v1.27.1" true;
  req "go.uber.org/zap/exp" "v0.3.0" true;
  req "go.yaml.in/yaml/v2" "v2.4.3" true;
  req "golang.org/x/crypto" "v0.45.0" true;
  req "golang.org/x/crypto/x509roots/fallback" "v0.0.0-20250529171604-18228cd6f13e" true;
  req "golang.org/x/exp" "v0.0.0-20250530174510-65e920069ea6" true;
  req "golang.org/x/mod" "v0.30.0" true;
  req "golang.org/x/net" "v0.47.0" true;
  req "golang.org/x/oauth2" "v0.32.0" true;
  req "golang.org/x/sync" "v0.18.0" true;
  req "golang.org/x/sys" "v0.38.0" true;
  req "golang.org/x/term" "v0.37.0" true;
  req "golang.org/x/text" "v0.31.0" true;
  req "golang.org/x/time" "v0.14.0" true;
  req "golang.org/x/tools" "v0.39.0" true;
  req "golang.zx2c4.com/wintun" "v0.0.0-20230126152724-0fa3db229ce2" true;
  req "golang.zx2c4.com/wireguard" "v0.0.0-20250521234502-f333402bd9cb" true;
  req "google.golang.org/api" "v0.240.0" true;
  req "google.golang.org/genproto/googleapis/api" "v0.0.0-20250603155806-513f23925822" true;
  req "google.golang.org/genproto/googleapis/rpc" "v0.0.0-20250603155806-513f23925822" true;
  req "google.golang.org/grpc" "v1.73.0" true;
  req "google.golang.org/grpc/cmd/protoc-gen-go-grpc" "v1.5.1" true;
  req "google.golang.org/protobuf" "v1.36.10" true;
  req "gopkg.in/yaml.v3" "v3.0.1" true;
  req "gvisor.dev/gvisor" "v0.0.0-20250503011706-39ed1f5ac29c" true;
  req "howett.net/plist" "v1.0.1" true
].

(** go.mod as a whole: the module line, the go line, the replace
    directive of line 5 and the two require blocks. *)
Definition go_mod : ModFile.File := {|
  ModulePath := "github.com/ivanphz/my-custom-caddy";
  GoVersion := "1.25.4";
  Replaces := [
    mkReplace
      (mkVersion "github.com/caddyserver/forwardproxy" EmptyString)
      (mkVersion "github.com/klzgrad/forwardproxy"
                 "v0.0.0-20250118002110-d62c80d3dd2c")
  ];
  Requires := require_direct ++ require_indirect
|}.

(** The one redirect of go.mod, by name. *)
Definition forwardproxy : string := "github.com/caddyserver/forwardproxy".
Definition forwardproxy_fork : string := "github.com/klzgrad/forwardproxy".
Definition forwardproxy_required : string :=
  "v0.0.0-20251013200746-bb364cc53204".
Definition forwardproxy_fork_rev : string :=
  "v0.0.0-20250118002110-d62c80d3dd2c".

(** The replace directive of go.mod (line 5). *)
Definition forwardproxy_replace : Replace :=
  mkReplace (mkVersion forwardproxy EmptyString)
            (mkVersion forwardproxy_fork forwardproxy_fork_rev).

(** ** Version syntax *)

Module Semver.

Definition isDigit (c : ascii) : bool :=
  let n := nat_of_ascii c in ((48 <=? n) && (n <=? 57))%nat.

Definition isLetter (c : ascii) : bool :=
  let n := nat_of_ascii c in
  (((65 <=? n) && (n <=? 90)) || ((97 <=? n) && (n <=? 122)))%nat.

Definition isHex (c : ascii) : bool :=
  let n := nat_of_ascii c in
  isDigit c || ((97 <=? n) && (n <=? 102))%nat.

(** Characters of a pre-release tag. *)
Definition isTagChar (c : ascii) : bool :=
  isDigit c || isLetter c || bool_decide (c = "-"%char)
  || bool_decide (c = "."%char).

Fixpoint allChars (ok : ascii → bool) (s : string) : bool :=
  match s with
  | EmptyString => true
  | String c t => ok c && allChars ok t
  end.

Fixpoint skipDigits (s : string) : string :=
  match s with
  | String c t => if isDigit c then skipDigits t else s
  | EmptyString => s
  end.

(** Read a non-empty run of digits; the rest of the string is returned. *)
Definition number (s : string) : option string :=
  match s with
  | String c _ => if isDigit c then Some (skipDigits s) else None
  | EmptyString => None
  end.

(** Read one given character. *)
Definition expect (c : ascii) (s : string) : option string :=
  match s with
  | String d t => if bool_decide (c = d) then Some t else None
  | EmptyString => None
  end.

(** Sequencing of readers: stop at the first that fails. *)
Definition andThen (o : option string) (f : string → option string) :
    option string :=
  match o with
  | Some s => f s
  | None => None
  end.

Infix ">>>" := andThen (at level 50, left associativity).

(** [vMAJOR.MINOR.PATCH]; what follows the patch number is returned. *)
Definition core (s : string) : option string :=
  expect "v" s >>> number >>> expect "." >>> number >>> expect "."
    >>> number.

(** One exact version: [vMAJOR.MINOR.PATCH], optionally followed by
    [-] and a pre-release tag.  Ranges, wildcards and the empty string
    are not of this form. *)
Definition exact (s : string) : bool :=
  match core s with
  | Some EmptyString => true
  | Some (String "-" (String c t)) => allChars isTagChar (String c t)
  | _ => false
  end.

(** A pseudo-version for a revision with no earlier tag:
    [vX.0.0-yyyymmddhhmmss-abcdefabcdef]. *)
Definition pseudo (s : string) : bool :=
  match expect "v" s >>> number >>> expect "." >>> expect "0"
          >>> expect "." >>> expect "0" >>> expect "-" with
  | Some rest =>
      allChars isDigit (String.substring 0 14 rest)
      && bool_decide (String.substring 14 1 rest = "-")
      && allChars isHex (String.substring 15 12 rest)
      && bool_decide (String.length rest = 27)
  | None => false
  end.

End Semver.

(** Whether a require list pins [path] to one exact version. *)
Definition pinnedExact (rs : list Require) (path : string) : bool :=
  match pinned rs path with
  | Some v => Semver.exact v
  | None => false
  end.

(** ** Registration at process start *)

Module Registry.

(** Modelled from the spec: the registration routines live in the
    imported plugin packages and in the host program, none of which is
    part of this repository.  Section 4.4 of the specification gives the
    machine: two states per package, one transition, fired at process
    start for every linked package.  The host language initialises each
    linked package once, however often it is imported. *)
Inductive RegState : Type :=
| unregistered
| registered.

#[global] Instance RegState_eq_dec : EqDecision RegState.
Proof. solve_decision. Defined.

(** Modelled from the spec: the process state is the set of packages
    whose registration has fired; a package outside it is unregistered. *)
Definition regState (σ : gset string) (p : string) : RegState :=
  if decide (p ∈ σ) then registered else unregistered.

(** Modelled from the spec: the only transition of section 4.4, a
    linked, unregistered package registers.  There is no constructor
    that removes a package. *)
Inductive step (linked : list string) :
  gset string → string → gset string → Prop :=
| step_register σ p :
    p ∈ linked → p ∉ σ → step linked σ p ({[p]} ∪ σ).

(** Modelled from the spec: runs of the machine, with the packages that
    fired, in order.  The order is not fixed by the repository, so any
    order is a run. *)
Inductive run (linked : list string) :
  gset string → list string → gset string → Prop :=
| run_done σ : run linked σ [] σ
| run_step σ p σ' t σ'' :
    step linked σ p σ' → run linked σ' t σ'' → run linked σ (p :: t) σ''.

(** Modelled from the spec: start-up is over when no transition is
    enabled. *)
Definition quiescent (linked : list string) (σ : gset string) : Prop :=
  ∀ p σ', ¬ step linked σ p σ'.

(** Modelled from the spec: initialising one package at process start.
    A package already initialised is skipped, as the host language runs
    a package's initialisation once. *)
Definition initPackage (s : list string * gset string) (p : string) :
    list string * gset string :=
  if decide (p ∈ s.2) then s else ((s.1 ++ [p])%list, {[p]} ∪ s.2).

(** Modelled from the spec: process start initialises every linked
    package, here in list order.  The result is the order of firing and
    the final state. *)
Definition processStart (linked : list string) :
    list string * gset string :=
  foldl initPackage ([], ∅) linked.

End Registry.

(** ** The binary of a build *)

(** Modelled from the spec: the order in which registrations fire when
    the binary of the build [ctx] starts, for the packages the file [f]
    links for their side effect. *)
Definition startOrder (ctx : GoFile.Context) (f : GoFile.File) :
    list string :=
  (Registry.processStart (GoFile.sideEffectImports ctx f)).1.

(** Modelled from the spec: the packages registered once that binary has
    started. *)
Definition registeredAtStart (ctx : GoFile.Context) (f : GoFile.File) :
    gset string :=
  (Registry.processStart (GoFile.sideEffectImports ctx f)).2.

(** ** The claims of the specification, as predicates *)

(** "The lockfile contains A' (not A)": the file pins the replacement at
    its revision, in a require block or as the target of a replace
    directive, and no require block names the original. *)
Definition pinsTargetNotOriginal (f : ModFile.File) (r : Replace) : Prop :=
  (New r ∈ (Mod <$> Requires f) ∨ New r ∈ (New <$> Replaces f))
  ∧ VPath (Old r) ∉ (reqPath <$> Requires f).

(** ** Further reading of go.mod *)

#[global] Instance Require_eq_dec : EqDecision Require.
Proof. solve_decision. Defined.

(** The two require blocks, as the file groups them. *)
Definition require_blocks : list (list Require) :=
  [require_direct; require_indirect].

(** Whether a list of strings is strictly ascending, each entry below the
    next in byte order. *)
Fixpoint ascending (l : list string) : bool :=
  match l with
  | [] => true
  | a :: t =>
      match t with
      | [] => true
      | b :: _ => String.ltb a b
      end && ascending t
  end.

Module PathMajor.

(** The leading digits of a list of characters, and what follows them. *)
Fixpoint spanDigits (cs : list ascii) : list ascii * list ascii :=
  match cs with
  | c :: t =>
      if Semver.isDigit c
      then let '(ds, rest) := spanDigits t in (c :: ds, rest)
      else ([], cs)
  | [] => ([], [])
  end.

(** The major version a module path announces: the digits [N] of a last
    path element [vN], or of a final [.vN] for a path under gopkg.in.
    A path with no such ending announces none. *)
Definition ofPath (path : string) : option string :=
  let '(ds, rest) := spanDigits (rev (String.list_ascii_of_string path)) in
  match ds, rest with
  | _ :: _, "v"%char :: "/"%char :: _ =>
      Some (String.string_of_list_ascii (rev ds))
  | _ :: _, "v"%char :: "."%char :: _ =>
      if String.prefix "gopkg.in/" path
      then Some (String.string_of_list_ascii (rev ds))
      else None
  | _, _ => None
  end.

(** The major number of a version [vMAJOR.MINOR.PATCH...]. *)
Definition ofVersion (v : string) : option string :=
  match String.list_ascii_of_string v with
  | "v"%char :: cs =>
      match spanDigits cs with
      | (d :: ds, "."%char :: _) =>
          Some (String.string_of_list_ascii (d :: ds))
      | _ => None
      end
  | _ => None
  end.

(** A version fits a path when it has the major number the path
    announces, or major 0 or 1 when the path announces none. *)
Definition agrees (m : Version) : bool :=
  match ofPath (VPath m), ofVersion (VVersion m) with
  | Some n, Some k => bool_decide (n = k)
  | None, Some k => bool_decide (k = "0") || bool_decide (k = "1")
  | _, None => false
  end.

End PathMajor.

(** ** Which module provides an imported package *)

(** A module provides the packages whose import path is the module path
    or continues it after a slash. *)
Definition providesPackage (modpath pkg : string) : bool :=
  bool_decide (modpath = pkg) || String.prefix (modpath +:+ "/") pkg.

(** The required modules that can provide the package [pkg]. *)
Definition providers (f : ModFile.File) (pkg : string) : list Version :=
  filter (λ m, providesPackage (VPath m) pkg = true) (Mod <$> Requires f).

(** * Properties *)

Example manifest_size : length manifest = 9.
Proof. reflexivity. Qed.

Example require_sizes :
  length require_direct = 19 ∧ length require_indirect = 150.
Proof. split; reflexivity. Qed.

Example exact_examples :
  Semver.exact "v2.10.2" = true ∧ Semver.exact "v0.2.10-2" = true
  ∧ Semver.exact EmptyString = false ∧ Semver.exact ">=v1.0.0" = false
  ∧ Semver.exact "v1.2" = false ∧ Semver.exact "latest" = false.
Proof. repeat split; reflexivity. Qed.

Example pseudo_examples :
  Semver.pseudo forwardproxy_fork_rev = true
  ∧ Semver.pseudo "v2.10.2" = false
  ∧ Semver.pseudo "v0.1.6-0.20241020092332-e1fe9ea73740" = false.
Proof. repeat split; reflexivity. Qed.

(** ** Lists pinned by a key *)

Section KeyedLists.
Context {A K : Type} `{EqDecision K} (key : A → K).

(** With pairwise distinct keys, a key selects at most one entry. *)
Lemma filter_key_length (l : list A) (k : K) :
  NoDup (key <$> l) → length (filter (λ x, key x = k) l) ≤ 1.
Proof.
  induction l as [|x l IH]; intros Hnd; simpl; [lia|].
  rewrite fmap_cons in Hnd. apply NoDup_cons in Hnd as [Hx Hnd].
  rewrite filter_cons. case_decide as Hk; [|by apply IH].
  destruct (filter (λ y, key y = k) l) as [|y rest] eqn:Hrest; [simpl; lia|].
  assert (Hy : y ∈ filter (λ y, key y = k) l) by (rewrite Hrest; left).
  apply list_elem_of_filter in Hy as [Hyk Hy].
  destruct Hx. rewrite Hk, <- Hyk. by apply list_elem_of_fmap_2.
Qed.

(** Entries that agree on the key are the same entry. *)
Lemma NoDup_key_inj (l : list A) (x y : A) :
  NoDup (key <$> l) → x ∈ l → y ∈ l → key x = key y → x = y.
Proof.
  intros Hnd Hx Hy Hk.
  apply list_elem_of_lookup in Hx as [i Hi].
  apply list_elem_of_lookup in Hy as [j Hj].
  assert (i = j) as ->.
  { eapply NoDup_lookup; [exact Hnd| |];
      rewrite list_lookup_fmap; [by rewrite Hi|by rewrite Hj, Hk]. }
  congruence.
Qed.
End KeyedLists.

(** Closed, decidable facts about the two files are settled by evaluation. *)
Ltac by_evaluation := apply (bool_decide_unpack _); vm_compute; exact I.

Lemma manifest_NoDup : NoDup manifest.
Proof. by_evaluation. Qed.

Lemma require_paths_NoDup : NoDup (reqPath <$> Requires go_mod).
Proof. by_evaluation. Qed.

Lemma manifest_all_pinned :
  Forall (λ p, p ∈ (reqPath <$> require_direct)
               ∧ pinnedExact require_direct p = true) manifest.
Proof. by_evaluation. Qed.

Lemma pinnedExact_Some (rs : list Require) (p : string) :
  pinnedExact rs p = true → ∃ v, pinned rs p = Some v ∧ Semver.exact v = true.
Proof.
  unfold pinnedExact. destruct (pinned rs p) as [v|]; [eauto|done].
Qed.

(** C3. Every import identifier of the Selection Manifest is unique: at
    two distinct positions of the blank-import list of tools.go the
    import paths differ. *)
Theorem manifest_identifiers_unique (i j : nat) (a b : string) :
  i ≠ j → manifest !! i = Some a → manifest !! j = Some b → a ≠ b.
Proof.
  intros Hij Hi Hj ->. apply Hij.
  exact (NoDup_lookup manifest i j b manifest_NoDup Hi Hj).
Qed.

Lemma manifest_identifiers_unique_witness :
  "github.com/caddyserver/caddy/v2" ≠ "github.com/caddyserver/forwardproxy".
Proof.
  apply (manifest_identifiers_unique 0 1); [lia|reflexivity|reflexivity].
Defined.

(** C5. The dependency file pins one version per identifier: across both
    require blocks no module path is listed twice and every entry carries
    one exact version, so every path selects at most one entry, and
    entries naming the same path carry the same version. *)
Theorem one_version_per_identifier :
  NoDup (reqPath <$> (require_direct ++ require_indirect)%list)
  ∧ Forall (λ r, Semver.exact (reqVersion r) = true) (Requires go_mod)
  ∧ (∀ path,
       length (filter (λ r, reqPath r = path) (Requires go_mod)) ≤ 1)
  ∧ (∀ r1 r2, r1 ∈ Requires go_mod → r2 ∈ Requires go_mod →
       reqPath r1 = reqPath r2 → reqVersion r1 = reqVersion r2).
Proof.
  split; [exact require_paths_NoDup|]. split; [by_evaluation|]. split.
  - intros path. apply filter_key_length, require_paths_NoDup.
  - intros r1 r2 H1 H2 Hp.
    by rewrite (NoDup_key_inj reqPath _ r1 r2 require_paths_NoDup H1 H2 Hp).
Qed.

(** C8. Every identifier listed in tools.go is named in the first
    (direct) require block of go.mod, which pins it to one exact version:
    no manifest entry is left unpinned. *)
Theorem manifest_entries_pinned (p : string) :
  p ∈ manifest →
  p ∈ (reqPath <$> require_direct)
  ∧ ∃ v, pinned require_direct p = Some v ∧ Semver.exact v = true.
Proof.
  intros Hp.
  destruct (proj1 (Forall_forall _ _) manifest_all_pinned p Hp) as [Hin Hex].
  split; [exact Hin|]. by apply pinnedExact_Some.
Qed.

Lemma manifest_entries_pinned_witness :
  "github.com/mholt/caddy-l4" ∈ (reqPath <$> require_direct)
  ∧ ∃ v, pinned require_direct "github.com/mholt/caddy-l4" = Some v
         ∧ Semver.exact v = true.
Proof.
  apply (manifest_entries_pinned "github.com/mholt/caddy-l4").
  by_evaluation.
Defined.

(** C9. The replacement source of the redirect is named in neither
    require block, so applying the redirect yields a list of loaded
    modules without a repeated path, in which the replacement source
    occurs exactly once. *)
Theorem replacement_source_fresh :
  (forwardproxy_fork ∉ (reqPath <$> require_direct))
  ∧ (forwardproxy_fork ∉ (reqPath <$> require_indirect))
  ∧ Forall (λ r, VPath (New r) ∉ (reqPath <$> Requires go_mod))
           (Replaces go_mod)
  ∧ NoDup (VPath <$> loaded go_mod)
  ∧ length (filter (λ m, VPath m = forwardproxy_fork) (loaded go_mod)) = 1.
Proof.
  repeat split; by_evaluation.
Qed.

(** ** The build constraint of tools.go *)

Lemma shouldBuild_tools (ctx : GoFile.Context) :
  GoFile.shouldBuild ctx tools_go = bool_decide ("tools" ∈ ctx).
Proof. reflexivity. Qed.

(** What tools.go contributes to a build, for every set of tags. *)
Lemma sideEffectImports_tools (ctx : GoFile.Context) :
  GoFile.sideEffectImports ctx tools_go
  = if bool_decide ("tools" ∈ ctx) then manifest else [].
Proof.
  unfold GoFile.sideEffectImports, GoFile.buildImports.
  rewrite shouldBuild_tools. by case_bool_decide.
Qed.

(** A side effect contributed by tools.go shows that the tag was set. *)
Lemma side_effect_needs_tools (ctx : GoFile.Context) (p : string) :
  p ∈ GoFile.sideEffectImports ctx tools_go → "tools" ∈ ctx.
Proof.
  rewrite sideEffectImports_tools. case_bool_decide; [done|].
  by intros ?%elem_of_nil.
Qed.

(** C10. The whole Selection Manifest is gated behind the [tools] build
    constraint: in every build whose tags do not include [tools], tools.go
    contributes no import at all, so no side-effect import comes from it
    and none of the nine listed packages is among them. *)
Theorem tools_tag_gates_manifest (ctx : GoFile.Context) :
  "tools" ∉ ctx →
  GoFile.buildImports ctx tools_go = []
  ∧ GoFile.sideEffectImports ctx tools_go = []
  ∧ length manifest = 9
  ∧ Forall (λ p, p ∉ GoFile.sideEffectImports ctx tools_go) manifest.
Proof.
  intros Hno.
  assert (Hb : GoFile.buildImports ctx tools_go = []).
  { unfold GoFile.buildImports. rewrite shouldBuild_tools.
    by rewrite bool_decide_eq_false_2. }
  assert (Hs : GoFile.sideEffectImports ctx tools_go = []).
  { unfold GoFile.sideEffectImports. by rewrite Hb. }
  repeat split; [exact Hb|exact Hs|].
  rewrite Hs. apply Forall_forall. intros p _. apply not_elem_of_nil.
Qed.

Lemma tools_tag_gates_manifest_witness :
  GoFile.buildImports {["linux"; "amd64"]} tools_go = []
  ∧ GoFile.sideEffectImports {["linux"; "amd64"]} tools_go = []
  ∧ length manifest = 9
  ∧ Forall (λ p, p ∉ GoFile.sideEffectImports {["linux"; "amd64"]} tools_go)
           manifest.
Proof.
  apply (tools_tag_gates_manifest {["linux"; "amd64"]}).
  by_evaluation.
Defined.

(** ** The replace directive *)

Lemma go_mod_replaces : Replaces go_mod = [forwardproxy_replace].
Proof. reflexivity. Qed.

(** The directive names no version on its left, so it answers for every
    version of the old path, and for no other path. *)
Lemma Replacement_go_mod (m : Version) :
  Replacement (Replaces go_mod) m
  = if decide (VPath m = forwardproxy)
    then Some (mkVersion forwardproxy_fork forwardproxy_fork_rev)
    else None.
Proof.
  destruct m as [path v]. unfold Replacement. rewrite go_mod_replaces.
  rewrite !filter_cons, !filter_nil. simpl.
  destruct (decide (path = forwardproxy)) as [->|Hne].
  - repeat case_decide; try done.
  - repeat case_decide; try done; simplify_eq.
Qed.

Lemma resolveReplacement_go_mod (m : Version) :
  resolveReplacement (Replaces go_mod) m
  = if decide (VPath m = forwardproxy)
    then mkVersion forwardproxy_fork forwardproxy_fork_rev
    else m.
Proof.
  unfold resolveReplacement. rewrite Replacement_go_mod. by case_decide.
Qed.

(** C2, as the specification states it, fails on go.mod: the first
    require block still names the original identifier, at a revision of
    its own. *)
Lemma require_keeps_original :
  ¬ pinsTargetNotOriginal go_mod forwardproxy_replace.
Proof.
  intros [_ Hold]. apply Hold. by_evaluation.
Qed.

(** Applying the directive a second time changes nothing: its target is
    not itself redirected. *)
Lemma resolveReplacement_idempotent (m : Version) :
  resolveReplacement (Replaces go_mod)
    (resolveReplacement (Replaces go_mod) m)
  = resolveReplacement (Replaces go_mod) m.
Proof.
  rewrite (resolveReplacement_go_mod m). case_decide as Hm.
  - reflexivity.
  - rewrite resolveReplacement_go_mod. by rewrite decide_False.
Qed.

(** C2, amended. go.mod keeps the original identifier in its first
    require block, at the original's own pseudo-version, and names the
    replacement source with its pinned revision in the replace directive
    only.  The module loaded for the original identifier is the
    replacement at that revision, and the original is not loaded.
    tools.go imports the package under the original path and not under
    the replacement's. *)
Theorem forwardproxy_redirect_resolution :
  Replaces go_mod = [forwardproxy_replace]
  ∧ pinned require_direct forwardproxy = Some forwardproxy_required
  ∧ pinned (Requires go_mod) forwardproxy_fork = None
  ∧ forwardproxy_required ≠ forwardproxy_fork_rev
  ∧ resolveReplacement (Replaces go_mod)
      (mkVersion forwardproxy forwardproxy_required)
    = mkVersion forwardproxy_fork forwardproxy_fork_rev
  ∧ (mkVersion forwardproxy_fork forwardproxy_fork_rev ∈ loaded go_mod)
  ∧ (forwardproxy ∉ (VPath <$> loaded go_mod))
  ∧ (forwardproxy ∈ manifest)
  ∧ (forwardproxy_fork ∉ manifest).
Proof.
  split; [reflexivity|]. repeat split; by_evaluation.
Qed.

(** C4. The manifest has one redirect rule.  It maps the old identifier,
    with no version restriction, to the pair of the new source location
    and one pinned pseudo-version.  It applies to every consumer: whatever
    version of the old identifier is asked for, the new source at the
    pinned revision is loaded; no requirement list keeps the old
    identifier once the rule is applied; every other module is left as it
    is. *)
Theorem redirect_rule_mapping :
  Replaces go_mod
  = [mkReplace (mkVersion "github.com/caddyserver/forwardproxy"
                          EmptyString)
               (mkVersion "github.com/klzgrad/forwardproxy"
                          "v0.0.0-20250118002110-d62c80d3dd2c")]
  ∧ Semver.pseudo "v0.0.0-20250118002110-d62c80d3dd2c" = true
  ∧ (∀ v, resolveReplacement (Replaces go_mod)
            (mkVersion "github.com/caddyserver/forwardproxy" v)
          = mkVersion "github.com/klzgrad/forwardproxy"
                      "v0.0.0-20250118002110-d62c80d3dd2c")
  ∧ (∀ ms : list Version,
       "github.com/caddyserver/forwardproxy"
       ∉ (VPath <$> (resolveReplacement (Replaces go_mod) <$> ms)))
  ∧ (∀ m, resolveReplacement (Replaces go_mod) m
          = if decide (VPath m = "github.com/caddyserver/forwardproxy")
            then mkVersion "github.com/klzgrad/forwardproxy"
                           "v0.0.0-20250118002110-d62c80d3dd2c"
            else m).
Proof.
  split; [reflexivity|]. split; [reflexivity|]. split; [|split].
  - intros v. by rewrite resolveReplacement_go_mod.
  - intros ms Hin.
    apply list_elem_of_fmap in Hin as [m' [Hp Hm']].
    apply list_elem_of_fmap in Hm' as [m [-> _]].
    rewrite resolveReplacement_go_mod in Hp.
    case_decide as Hm; [discriminate Hp|].
    by destruct Hm.
  - exact resolveReplacement_go_mod.
Qed.

(** ** The registration machine *)

Section Registration.
Import Registry.
Variable linked : list string.

Lemma regState_registered (σ : gset string) (p : string) :
  regState σ p = registered ↔ p ∈ σ.
Proof. unfold regState. case_decide; naive_solver. Qed.

Lemma regState_unregistered (σ : gset string) (p : string) :
  regState σ p = unregistered ↔ p ∉ σ.
Proof. unfold regState. case_decide; naive_solver. Qed.

(** The one transition leads from unregistered to registered. *)
Lemma step_fires (σ σ' : gset string) (p : string) :
  step linked σ p σ' →
  regState σ p = unregistered ∧ regState σ' p = registered.
Proof.
  intros Hstep. destruct Hstep as [σ p Hp Hfresh].
  rewrite regState_unregistered, regState_registered. set_solver.
Qed.

(** No transition takes a package out of the registered state. *)
Lemma step_keeps_registered (σ σ' : gset string) (p q : string) :
  step linked σ p σ' →
  regState σ q = registered → regState σ' q = registered.
Proof.
  intros Hstep. destruct Hstep as [σ p Hp Hfresh].
  rewrite !regState_registered. set_solver.
Qed.

Lemma run_snoc (σ σ' σ'' : gset string) (t : list string) (p : string) :
  run linked σ t σ' → step linked σ' p σ'' → run linked σ (t ++ [p]) σ''.
Proof.
  induction 1 as [σ|σ q σ1 t σ2 Hq _ IH]; intros Hstep; simpl.
  - eapply run_step; [exact Hstep|constructor].
  - eapply run_step; [exact Hq|by apply IH].
Qed.

(** What a run does: the packages that fire are linked, were not yet
    registered, fire once each, and are what the state gains. *)
Lemma run_inv (σ σ' : gset string) (t : list string) :
  run linked σ t σ' →
  NoDup t ∧ Forall (λ p, p ∈ linked ∧ p ∉ σ) t ∧ σ' = list_to_set t ∪ σ.
Proof.
  induction 1 as [σ|σ p σ1 t σ2 Hstep _ (Hnd & Hall & ->)].
  - split; [constructor|]. split; [constructor|]. set_solver.
  - destruct Hstep as [σ p Hp Hfresh]. split; [|split].
    + apply NoDup_cons. split; [|exact Hnd]. intros Hin.
      destruct (proj1 (Forall_forall _ _) Hall p Hin) as [_ Hn].
      set_solver.
    + constructor; [done|]. eapply Forall_impl; [exact Hall|].
      simpl. intros q [Hq Hn]. split; [done|set_solver].
    + set_solver.
Qed.

Lemma quiescent_iff (σ : gset string) :
  quiescent linked σ ↔ ∀ p, p ∈ linked → p ∈ σ.
Proof.
  split.
  - intros Hq p Hp. destruct (decide (p ∈ σ)) as [|Hn]; [done|].
    destruct (Hq p ({[p]} ∪ σ)). by constructor.
  - intros Hall p σ' Hstep. destruct Hstep as [σ p Hp Hfresh].
    by apply Hfresh, Hall.
Qed.

(** Once start-up is over, nothing fires any more. *)
Lemma quiescent_run (σ σ' : gset string) (u : list string) :
  quiescent linked σ → run linked σ u σ' → u = [] ∧ σ' = σ.
Proof.
  intros Hq Hrun. destruct Hrun as [σ|σ p σ1 t σ2 Hstep _]; [done|].
  by destruct (Hq p σ1).
Qed.

(** Start-up from any point reached by a run. *)
Lemma foldl_initPackage (l t : list string) (σ : gset string) :
  l ⊆ linked → run linked ∅ t σ →
  run linked ∅ (foldl initPackage (t, σ) l).1
               (foldl initPackage (t, σ) l).2
  ∧ (∀ p, p ∈ l → p ∈ (foldl initPackage (t, σ) l).2)
  ∧ σ ⊆ (foldl initPackage (t, σ) l).2.
Proof.
  revert t σ. induction l as [|a l IH]; intros t σ Hsub Hrun; cbn [foldl].
  - split; [exact Hrun|]. split; [by intros p ?%elem_of_nil|done].
  - assert (Ha : a ∈ linked) by (apply Hsub; left).
    assert (Hl : l ⊆ linked) by (intros x Hx; apply Hsub; by right).
    assert (Hinit : initPackage (t, σ) a
              = if decide (a ∈ σ) then (t, σ)
                else ((t ++ [a])%list, {[a]} ∪ σ)) by reflexivity.
    rewrite Hinit. clear Hinit. case_decide as Hin.
    + destruct (IH t σ Hl Hrun) as (Hr & Hall & Hmono).
      split; [exact Hr|]. split; [|exact Hmono].
      intros p [->|Hp]%elem_of_cons; [by apply Hmono|by apply Hall].
    + assert (Hrun' : run linked ∅ (t ++ [a]) ({[a]} ∪ σ)).
      { eapply run_snoc; [exact Hrun|by constructor]. }
      destruct (IH _ _ Hl Hrun') as (Hr & Hall & Hmono).
      split; [exact Hr|]. split; [|set_solver].
      intros p [->|Hp]%elem_of_cons; [set_solver|by apply Hall].
Qed.

(** Process start always completes, as a run that ends quiescent. *)
Lemma processStart_run :
  run linked ∅ (processStart linked).1 (processStart linked).2
  ∧ quiescent linked (processStart linked).2.
Proof.
  destruct (foldl_initPackage linked [] ∅) as (Hr & Hall & _);
    [done|constructor|].
  split; [exact Hr|]. by apply quiescent_iff.
Qed.

(** A complete run fires every linked package, and nothing else. *)
Lemma complete_run_elems (t : list string) (σ : gset string) (p : string) :
  run linked ∅ t σ → quiescent linked σ → p ∈ t ↔ p ∈ linked.
Proof.
  intros Hrun Hq. destruct (run_inv _ _ _ Hrun) as (_ & Hall & ->).
  split.
  - intros Hp. by destruct (proj1 (Forall_forall _ _) Hall p Hp).
  - intros Hp. apply (proj1 (quiescent_iff _) Hq) in Hp. set_solver.
Qed.
End Registration.

(** In a list without repetition, a member occurs once. *)
Lemma NoDup_occurs_once (l : list string) (p : string) :
  NoDup l → p ∈ l → length (filter (λ q, q = p) l) = 1.
Proof.
  induction l as [|x l IH]; intros Hnd Hp; [by apply elem_of_nil in Hp|].
  apply NoDup_cons in Hnd as [Hx Hnd]. rewrite filter_cons.
  case_decide as Hxp.
  - subst x.
    destruct (filter (λ q, q = p) l) as [|y rest] eqn:Hrest; [done|].
    assert (Hy : y ∈ filter (λ q, q = p) l) by (rewrite Hrest; left).
    apply list_elem_of_filter in Hy as [-> Hy]. done.
  - apply elem_of_cons in Hp as [->|Hp]; [done|]. by apply IH.
Qed.

(** C6. Every linked plugin package goes from unregistered to registered
    exactly once at process start; registered is terminal; there is no
    un-registration transition.  Process start completes as a run of the
    machine in which each linked package fires once and nothing else
    fires, whatever the order; after it no transition is enabled; and
    every transition of the machine leads from unregistered to
    registered and keeps every registered package registered. *)
Theorem registration_once_and_terminal (linked : list string) :
  let t := (Registry.processStart linked).1 in
  let σ := (Registry.processStart linked).2 in
  Registry.run linked ∅ t σ
  ∧ Registry.quiescent linked σ
  ∧ Forall (λ p, Registry.regState σ p = Registry.registered
                 ∧ length (filter (λ q, q = p) t) = 1) linked
  ∧ (∀ t' σ', Registry.run linked ∅ t' σ' → Registry.quiescent linked σ' →
       t' ≡ₚ remove_dups linked ∧ σ' = σ
       ∧ Forall (λ p, length (filter (λ q, q = p) t') = 1) linked)
  ∧ (∀ u σ', Registry.run linked σ u σ' → u = [] ∧ σ' = σ)
  ∧ (∀ σ1 p σ2, Registry.step linked σ1 p σ2 →
       Registry.regState σ1 p = Registry.unregistered
       ∧ Registry.regState σ2 p = Registry.registered)
  ∧ (∀ σ1 p σ2 q, Registry.step linked σ1 p σ2 →
       Registry.regState σ1 q = Registry.registered →
       Registry.regState σ2 q = Registry.registered).
Proof.
  intros t σ. destruct (processStart_run linked) as [Hrun Hq].
  fold t σ in Hrun, Hq.
  assert (Hcomplete : ∀ t' σ', Registry.run linked ∅ t' σ' →
            Registry.quiescent linked σ' →
            t' ≡ₚ remove_dups linked ∧ σ' = list_to_set linked
            ∧ Forall (λ p, length (filter (λ q, q = p) t') = 1) linked).
  { intros t' σ' Hrun' Hq'.
    pose proof (complete_run_elems linked t' σ') as Helems.
    destruct (run_inv _ _ _ _ Hrun') as (Hnd & _ & Hσ').
    split; [|split].
    - apply NoDup_Permutation; [exact Hnd|apply NoDup_remove_dups|].
      intros p. rewrite elem_of_remove_dups. by apply Helems.
    - subst σ'. apply set_eq. intros p.
      rewrite elem_of_union, !elem_of_list_to_set.
      rewrite (Helems p Hrun' Hq'). set_solver.
    - apply Forall_forall. intros p Hp.
      apply NoDup_occurs_once; [exact Hnd|]. by apply Helems. }
  destruct (Hcomplete t σ Hrun Hq) as (_ & Hσ & Honce).
  split; [exact Hrun|]. split; [exact Hq|]. split; [|split; [|split; [|split]]].
  - apply Forall_forall. intros p Hp. split.
    + apply regState_registered. by apply (proj1 (quiescent_iff _ _) Hq).
    + by apply (proj1 (Forall_forall _ _) Honce).
  - intros t' σ' Hrun' Hq'.
    destruct (Hcomplete t' σ' Hrun' Hq') as (Hperm & -> & Honce').
    by rewrite Hσ.
  - intros u σ'. by apply quiescent_run.
  - intros σ1 p σ2. apply step_fires.
  - intros σ1 p σ2 q. apply step_keeps_registered.
Qed.

(** The packages of tools.go: start-up fires them in their listed order. *)
Example processStart_manifest :
  (Registry.processStart manifest).1 = manifest
  ∧ Forall (λ p, Registry.regState (Registry.processStart manifest).2 p
                 = Registry.registered) manifest
  ∧ Registry.regState (Registry.processStart manifest).2
      "github.com/greenpau/caddy-security" = Registry.unregistered.
Proof. repeat split; by_evaluation. Qed.

(** A package imported twice is still initialised once. *)
Example processStart_duplicate :
  (Registry.processStart ["a"; "b"; "a"]).1 = ["a"; "b"].
Proof. by_evaluation. Qed.

(** ** The registrations of the binary *)

Lemma manifest_is_import_block :
  manifest = GoFile.Path <$> GoFile.Imports tools_go.
Proof. vm_compute. reflexivity. Qed.

(** After process start a package is registered exactly when it is
    linked. *)
Lemma registered_iff_linked (linked : list string) (p : string) :
  Registry.regState (Registry.processStart linked).2 p = Registry.registered
  ↔ p ∈ linked.
Proof.
  destruct (processStart_run linked) as [Hrun Hq].
  rewrite regState_registered.
  rewrite <- (complete_run_elems linked _ _ p Hrun Hq).
  destruct (run_inv _ _ _ _ Hrun) as (_ & _ & Hσ).
  rewrite Hσ. set_solver.
Qed.

(** C1. In the binary of a build that tools.go takes part in, the
    registration side effects that have fired at process start are
    exactly those of the identifiers of its import block, and no others:
    a package is registered if and only if the import block lists it;
    each listed package fires once, nine in all.  The first require block
    of go.mod names ten further modules (caddy-security and caddy-webdav
    among them); none of them is registered. *)
Theorem manifest_registrations_exact (ctx : GoFile.Context) :
  GoFile.shouldBuild ctx tools_go = true →
  (∀ p, Registry.regState (registeredAtStart ctx tools_go) p
        = Registry.registered
        ↔ p ∈ (GoFile.Path <$> GoFile.Imports tools_go))
  ∧ Forall (λ i, length (filter (λ q, q = GoFile.Path i)
                                (startOrder ctx tools_go)) = 1)
           (GoFile.Imports tools_go)
  ∧ length (startOrder ctx tools_go) = 9
  ∧ filter (λ p, Registry.regState (registeredAtStart ctx tools_go) p
                 = Registry.unregistered)
           (reqPath <$> require_direct)
    = [ "github.com/caddy-dns/tencentcloud";
        "github.com/caddyserver/jsonc-adapter";
        "github.com/greenpau/caddy-security";
        "github.com/lanrat/caddy-dynamic-remoteip";
        "github.com/mholt/caddy-events-exec";
        "github.com/mholt/caddy-ratelimit";
        "github.com/mholt/caddy-webdav";
        "github.com/okrc/caddy-uploadcert-tencentcloud";
        "github.com/porech/caddy-maxmind-geolocation";
        "github.com/tuzzmaniandevil/caddy-dynamic-clientip" ].
Proof.
  intros Hb.
  assert (Hs : GoFile.sideEffectImports ctx tools_go = manifest).
  { unfold GoFile.sideEffectImports, GoFile.buildImports. by rewrite Hb. }
  unfold registeredAtStart, startOrder. rewrite Hs. clear Hs Hb ctx.
  split; [|split; [|split]]; [|by_evaluation..].
  intros p.
  exact (eq_ind manifest
           (λ l, Registry.regState (Registry.processStart manifest).2 p
                 = Registry.registered ↔ p ∈ l)
           (registered_iff_linked manifest p) _ manifest_is_import_block).
Qed.

Lemma manifest_registrations_exact_witness :
  (∀ p, Registry.regState (registeredAtStart {["tools"; "linux"]} tools_go) p
        = Registry.registered
        ↔ p ∈ (GoFile.Path <$> GoFile.Imports tools_go))
  ∧ Forall (λ i, length (filter (λ q, q = GoFile.Path i)
                                (startOrder {["tools"; "linux"]} tools_go))
                 = 1)
           (GoFile.Imports tools_go)
  ∧ length (startOrder {["tools"; "linux"]} tools_go) = 9
  ∧ filter (λ p, Registry.regState
                   (registeredAtStart {["tools"; "linux"]} tools_go) p
                 = Registry.unregistered)
           (reqPath <$> require_direct)
    = [ "github.com/caddy-dns/tencentcloud";
        "github.com/caddyserver/jsonc-adapter";
        "github.com/greenpau/caddy-security";
        "github.com/lanrat/caddy-dynamic-remoteip";
        "github.com/mholt/caddy-events-exec";
        "github.com/mholt/caddy-ratelimit";
        "github.com/mholt/caddy-webdav";
        "github.com/okrc/caddy-uploadcert-tencentcloud";
        "github.com/porech/caddy-maxmind-geolocation";
        "github.com/tuzzmaniandevil/caddy-dynamic-clientip" ].
Proof.
  apply (manifest_registrations_exact {["tools"; "linux"]}).
  by_evaluation.
Defined.

(** * Further properties of the two files *)

(** ** Looking a path up in the require blocks *)

Section Lookup.
Variable rs : list Require.
Hypothesis rs_NoDup : NoDup (reqPath <$> rs).

Lemma Mod_eta (r : Require) : Mod r = mkVersion (reqPath r) (reqVersion r).
Proof. by destruct r as [[path v] ind]. Qed.

(** [pinned] answers with the version of the one line that names the
    path, and with nothing when no line names it. *)
Lemma pinned_spec (path v : string) :
  pinned rs path = Some v ↔ mkVersion path v ∈ (Mod <$> rs).
Proof.
  unfold pinned. split.
  - intros Hp. apply fmap_Some in Hp as (r & Hhead & ->).
    apply head_Some_elem_of, list_elem_of_filter in Hhead as [<- Hr].
    rewrite <- Mod_eta. by apply list_elem_of_fmap_2.
  - intros Hin. apply list_elem_of_fmap in Hin as (r & Hmod & Hr).
    rewrite Mod_eta in Hmod. injection Hmod as -> ->.
    destruct (filter (λ r0, reqPath r0 = reqPath r) rs) as [|r' l] eqn:Hf.
    + assert (Hrf : r ∈ filter (λ r0, reqPath r0 = reqPath r) rs)
        by (by apply list_elem_of_filter).
      rewrite Hf in Hrf. by apply elem_of_nil in Hrf.
    + assert (Hr' : r' ∈ filter (λ r0, reqPath r0 = reqPath r) rs)
        by (rewrite Hf; left).
      apply list_elem_of_filter in Hr' as [Hpath Hr'].
      simpl. by rewrite (NoDup_key_inj reqPath rs r' r rs_NoDup Hr' Hr Hpath).
Qed.
End Lookup.

(** X1. Looking a module path up in go.mod gives a version exactly when
    one of the two require blocks has a line with that path and that
    version; a path that no line names gives nothing. *)
Theorem pinned_finds_the_line (path v : string) :
  (pinned (Requires go_mod) path = Some v
   ↔ mkVersion path v ∈ (Mod <$> Requires go_mod))
  ∧ (pinned (Requires go_mod) path = None
     ↔ path ∉ (reqPath <$> Requires go_mod)).
Proof.
  split; [apply pinned_spec, require_paths_NoDup|].
  split.
  - intros Hnone Hin. apply list_elem_of_fmap in Hin as (r & -> & Hr).
    assert (Hsome : pinned (Requires go_mod) (reqPath r)
                    = Some (reqVersion r)).
    { apply pinned_spec; [exact require_paths_NoDup|].
      rewrite <- Mod_eta. by apply list_elem_of_fmap_2. }
    congruence.
  - intros Hnot. destruct (pinned (Requires go_mod) path) as [w|] eqn:Hp;
      [|done].
    destruct Hnot. apply pinned_spec in Hp; [|exact require_paths_NoDup].
    apply list_elem_of_fmap in Hp as (r & Hmod & Hr).
    apply list_elem_of_fmap. exists r. split; [|exact Hr].
    unfold reqPath. by rewrite <- Hmod.
Qed.

(** ** The order of the require blocks *)

Lemma ascii_compare_refl (c : ascii) : Ascii.compare c c = Eq.
Proof. unfold Ascii.compare. apply N.compare_refl. Qed.

Lemma ascii_compare_lt_trans (a b c : ascii) :
  Ascii.compare a b = Lt → Ascii.compare b c = Lt → Ascii.compare a c = Lt.
Proof.
  unfold Ascii.compare. rewrite !N.compare_lt_iff. apply N.lt_trans.
Qed.

Lemma string_compare_lt_trans (s1 s2 s3 : string) :
  String.compare s1 s2 = Lt → String.compare s2 s3 = Lt →
  String.compare s1 s3 = Lt.
Proof.
  revert s2 s3. induction s1 as [|c1 s1 IH]; intros [|c2 s2] [|c3 s3];
    simpl; try done.
  destruct (Ascii.compare c1 c2) eqn:H12; try done;
    destruct (Ascii.compare c2 c3) eqn:H23; try done.
  - apply Ascii.compare_eq_iff in H12 as ->.
    apply Ascii.compare_eq_iff in H23 as ->.
    rewrite ascii_compare_refl. apply IH.
  - apply Ascii.compare_eq_iff in H12 as ->. by rewrite H23.
  - apply Ascii.compare_eq_iff in H23 as <-. by rewrite H12.
  - by rewrite (ascii_compare_lt_trans _ _ _ H12 H23).
Qed.

Lemma string_ltb_trans (s1 s2 s3 : string) :
  String.ltb s1 s2 = true → String.ltb s2 s3 = true →
  String.ltb s1 s3 = true.
Proof.
  unfold String.ltb.
  destruct (String.compare s1 s2) eqn:H12; try done.
  destruct (String.compare s2 s3) eqn:H23; try done.
  by rewrite (string_compare_lt_trans _ _ _ H12 H23).
Qed.

(** In an ascending list the first entry is below every later one. *)
Lemma ascending_head (a : string) (l : list string) :
  ascending (a :: l) = true → Forall (λ b, String.ltb a b = true) l.
Proof.
  revert a. induction l as [|b l IH]; intros a Hasc; [constructor|].
  cbn [ascending] in Hasc. apply andb_prop in Hasc as [Hab Hl].
  constructor; [exact Hab|].
  eapply Forall_impl; [exact (IH b Hl)|].
  simpl. intros c Hbc. by eapply string_ltb_trans.
Qed.

Lemma ascending_tail (a : string) (l : list string) :
  ascending (a :: l) = true → ascending l = true.
Proof.
  cbn [ascending]. intros Hasc. by apply andb_prop in Hasc as [_ Hl].
Qed.

Lemma ascending_lookup (l : list string) (i j : nat) (a b : string) :
  ascending l = true → i < j → l !! i = Some a → l !! j = Some b →
  String.ltb a b = true.
Proof.
  revert i j. induction l as [|x l IH]; intros i j Hasc Hij Hi Hj;
    [done|].
  destruct j as [|j]; [lia|]. destruct i as [|i].
  - injection Hi as ->. simpl in Hj.
    apply (proj1 (Forall_forall _ _) (ascending_head _ _ Hasc)).
    by eapply list_elem_of_lookup_2.
  - simpl in Hi, Hj. eapply (IH i j); [by eapply ascending_tail|lia|done..].
Qed.

Lemma require_blocks_check :
  Forall (λ blk, ascending (reqPath <$> blk) = true) require_blocks.
Proof. by_evaluation. Qed.

(** X2. Each require block of go.mod is in strictly ascending order of
    module path: of two lines of one block, the earlier has the smaller
    path in byte order. *)
Theorem require_block_ascending
    (blk : list Require) (i j : nat) (a b : string) :
  blk ∈ require_blocks → i < j →
  (reqPath <$> blk) !! i = Some a → (reqPath <$> blk) !! j = Some b →
  String.ltb a b = true.
Proof.
  intros Hblk Hij Hi Hj.
  eapply ascending_lookup; [|exact Hij|exact Hi|exact Hj].
  by apply (proj1 (Forall_forall _ _) require_blocks_check).
Qed.

Lemma require_block_ascending_witness :
  String.ltb "cel.dev/expr" "howett.net/plist" = true.
Proof.
  apply (require_block_ascending require_indirect 0 149);
    [by_evaluation|lia|reflexivity|reflexivity].
Defined.

(** The file as a whole is not ascending: the second block starts anew. *)
Example requires_not_ascending :
  ascending (reqPath <$> Requires go_mod) = false.
Proof. vm_compute. reflexivity. Qed.

(** ** The indirect marks *)

Lemma indirect_marks_check :
  Forall (λ r, (Indirect r = true ↔ r ∈ require_indirect)
               ∧ (Indirect r = false ↔ r ∈ require_direct)
               ∧ (reqPath r ∈ manifest → Indirect r = false))
         (Requires go_mod).
Proof. by_evaluation. Qed.

(** X3. A line of go.mod carries the [// indirect] mark exactly when it
    stands in the second require block, and is unmarked exactly when it
    stands in the first; a line whose module tools.go imports is
    unmarked. *)
Theorem indirect_mark_matches_block (r : Require) :
  r ∈ Requires go_mod →
  (Indirect r = true ↔ r ∈ require_indirect)
  ∧ (Indirect r = false ↔ r ∈ require_direct)
  ∧ (reqPath r ∈ manifest → Indirect r = false).
Proof.
  intros Hr. exact (proj1 (Forall_forall _ _) indirect_marks_check r Hr).
Qed.

Lemma indirect_mark_matches_block_witness :
  (Indirect (req "golang.org/x/net" "v0.47.0" true) = true
   ↔ req "golang.org/x/net" "v0.47.0" true ∈ require_indirect)
  ∧ (Indirect (req "golang.org/x/net" "v0.47.0" true) = false
     ↔ req "golang.org/x/net" "v0.47.0" true ∈ require_direct)
  ∧ (reqPath (req "golang.org/x/net" "v0.47.0" true) ∈ manifest →
     Indirect (req "golang.org/x/net" "v0.47.0" true) = false).
Proof.
  apply (indirect_mark_matches_block (req "golang.org/x/net" "v0.47.0" true)).
  by_evaluation.
Defined.

(** ** Major versions *)

Example path_major_examples :
  PathMajor.ofPath "github.com/caddyserver/caddy/v2" = Some "2"
  ∧ PathMajor.ofPath "gopkg.in/yaml.v3" = Some "3"
  ∧ PathMajor.ofPath "github.com/zeebo/blake3" = None
  ∧ PathMajor.ofPath "github.com/mholt/caddy-l4" = None
  ∧ PathMajor.ofVersion "v2.10.2" = Some "2"
  ∧ PathMajor.ofVersion "v0.0.0-20250118002110-d62c80d3dd2c" = Some "0"
  ∧ PathMajor.agrees (mkVersion "github.com/caddyserver/caddy/v2" "v1.0.0")
    = false
  ∧ PathMajor.agrees (mkVersion "github.com/mholt/caddy-l4" "v2.0.0")
    = false.
Proof. repeat split; reflexivity. Qed.

Lemma agrees_spec (m : Version) :
  PathMajor.agrees m = true →
  ∃ k, PathMajor.ofVersion (VVersion m) = Some k
       ∧ match PathMajor.ofPath (VPath m) with
         | Some n => k = n
         | None => k = "0" ∨ k = "1"
         end.
Proof.
  unfold PathMajor.agrees.
  destruct (PathMajor.ofPath (VPath m)) as [n|],
    (PathMajor.ofVersion (VVersion m)) as [k|]; try done.
  - intros Hnk%bool_decide_eq_true. eauto.
  - intros [H0%bool_decide_eq_true|H1%bool_decide_eq_true]%orb_prop; eauto.
Qed.

Lemma path_major_check :
  Forall (λ m, PathMajor.agrees m = true)
         ((Mod <$> Requires go_mod) ++ (New <$> Replaces go_mod)).
Proof. by_evaluation. Qed.

(** X4. Every version go.mod pins has the major number its module path
    announces: a path ending in [/vN] (or [.vN] under gopkg.in) is pinned
    at major [N], and a path with no such ending at major 0 or 1.  This
    holds for the lines of both require blocks and for the target of the
    replace directive. *)
Theorem pinned_major_matches_path (m : Version) :
  m ∈ (Mod <$> Requires go_mod) ∨ m ∈ (New <$> Replaces go_mod) →
  ∃ k, PathMajor.ofVersion (VVersion m) = Some k
       ∧ match PathMajor.ofPath (VPath m) with
         | Some n => k = n
         | None => k = "0" ∨ k = "1"
         end.
Proof.
  intros Hm. apply agrees_spec.
  apply (proj1 (Forall_forall _ _) path_major_check).
  apply elem_of_app. exact Hm.
Qed.

Lemma pinned_major_matches_path_witness :
  ∃ k, PathMajor.ofVersion "v2.2007.4" = Some k
       ∧ match PathMajor.ofPath "github.com/dgraph-io/badger/v2" with
         | Some n => k = n
         | None => k = "0" ∨ k = "1"
         end.
Proof.
  apply (pinned_major_matches_path
           (mkVersion "github.com/dgraph-io/badger/v2" "v2.2007.4")).
  left. by_evaluation.
Defined.

(** ** The module behind each import *)

Example providers_examples :
  providers go_mod "golang.org/x/crypto/x509roots/fallback/bundle"
  = [mkVersion "golang.org/x/crypto" "v0.45.0";
     mkVersion "golang.org/x/crypto/x509roots/fallback"
               "v0.0.0-20250529171604-18228cd6f13e"]
  ∧ providers go_mod "github.com/nobody/nothing" = []
  ∧ providers go_mod "github.com/mholt/caddy-l4x" = [].
Proof. repeat split; vm_compute; reflexivity. Qed.

Lemma manifest_providers_check :
  Forall (λ p, is_Some (pinned require_direct p)
               ∧ providers go_mod p
                 = [mkVersion p (default p (pinned require_direct p))]
               ∧ resolveReplacement (Replaces go_mod)
                   (mkVersion p (default p (pinned require_direct p)))
                 ∈ loaded go_mod) manifest.
Proof. by_evaluation. Qed.

(** X5. Each package tools.go imports is provided by exactly one module
    of go.mod: one required module path, and only one, equals the import
    path or is a prefix of it up to a slash.  That module has the import
    path as its own path, is pinned in the first require block, and the
    module loaded for it once the replace directive is applied is among
    the loaded modules. *)
Theorem manifest_import_has_one_provider (p : string) :
  p ∈ manifest →
  ∃ m, providers go_mod p = [m]
       ∧ VPath m = p
       ∧ pinned require_direct p = Some (VVersion m)
       ∧ resolveReplacement (Replaces go_mod) m ∈ loaded go_mod.
Proof.
  intros Hp.
  pose proof (proj1 (Forall_forall _ _) manifest_providers_check p Hp) as H.
  destruct H as ([v Hv] & Hprov & Hloaded). rewrite Hv in Hprov, Hloaded.
  by exists (mkVersion p v).
Qed.

Lemma manifest_import_has_one_provider_witness :
  ∃ m, providers go_mod "github.com/caddyserver/forwardproxy" = [m]
       ∧ VPath m = "github.com/caddyserver/forwardproxy"
       ∧ pinned require_direct "github.com/caddyserver/forwardproxy"
         = Some (VVersion m)
       ∧ resolveReplacement (Replaces go_mod) m ∈ loaded go_mod.
Proof.
  apply (manifest_import_has_one_provider
           "github.com/caddyserver/forwardproxy").
  by_evaluation.
Defined.

(** ** The import block of tools.go *)

(** X6. Every import spec of tools.go is a blank import: the file binds
    no package name, and in every build each import it contributes is a
    side-effect import, with none left over. *)
Theorem tools_go_imports_all_blank (ctx : GoFile.Context) :
  Forall (λ i, GoFile.Name i = GoFile.ImportBlank) (GoFile.Imports tools_go)
  ∧ GoFile.Path <$> GoFile.buildImports ctx tools_go
    = GoFile.sideEffectImports ctx tools_go.
Proof.
  split; [by_evaluation|].
  unfold GoFile.sideEffectImports, GoFile.buildImports.
  by destruct (GoFile.shouldBuild ctx tools_go).
Qed.
